(** * magicwheels: brake-pad friction/heat components and battery sizing

    A shallow embedding of the OpenMDAO components of the repository:

    - [pod_model/brakes/frictionpad/frictioncoefficient.py]
    - [pod_model/brakes/frictionpad/heatconduction.py]
    - [pod_model/brakes/frictionpad/heatconvective.py]
    - [pod_model/brakes/frictionpad/heatgeneration.py]
    - [drivetrain/battery.py]

    Numbers.  The Python code computes on floats.  The first model below
    takes a float for a real number ([R]): its arithmetic is exact, and it
    carries what does not depend on rounding (which names are read and
    written, which assertion fires first, what the battery formulas
    relate).  Where rounding, underflow or a zero divisor decides the
    behaviour, the components are modelled a second time on the machine's
    own arithmetic: the three heat components on IEEE binary64 values
    ([Binary64]), the battery with the divisions of Python and NumPy,
    which give no real number at a zero divisor ([Division]).

    Dictionaries.  The [options], [inputs] and [outputs] objects of the
    brake-pad components are indexed by name, and the names matter (one
    component reads names it never declared), so they are finite maps from
    strings to numbers.  Indexing an absent name raises [KeyError].

    Exceptions.  A Python statement either completes or raises; [compute]
    mutates [outputs] in place, so it is a state transformer over the
    outputs map that also returns the outcome. *)

From Stdlib Require Import Reals Lra ZArith.
From Stdlib Require Floats.
From stdpp Require Import gmap strings.

Local Open Scope R_scope.

(** ** Python values and control flow *)

(** The exceptions the modelled code can raise.  [NonFinite] is no
    exception of Python: it marks the point where a NumPy division by
    zero goes on with [inf] or [nan] (and a [RuntimeWarning]), values the
    real numbers do not have; a modelled run stops there. *)
Inductive exn : Type :=
  | KeyError (name : string)
  | AssertionError (msg : option string)
  | ZeroDivisionError
  | NonFinite.

(** How a statement ends. *)
Inductive result (A : Type) : Type :=
  | Ok (a : A)
  | Raise (e : exn).

Arguments Ok {A} a.
Arguments Raise {A} e.

(** Comparisons of reals are decided classically; [bool_decide (x > y)] is
    the truth value of the Python expression [x > y]. *)
#[global] Instance Rlt_decision (x y : R) : Decision (x < y) := Rlt_dec x y.
#[global] Instance Rgt_decision (x y : R) : Decision (x > y) := Rgt_dec x y.

(** A statement running against the mutable [outputs] dictionary. *)
Definition Py (A : Type) : Type :=
  gmap string R -> result A * gmap string R.

#[global] Instance Py_ret : MRet Py :=
  fun A (a : A) outputs => (Ok a, outputs).

Definition raise {A : Type} (e : exn) : Py A := fun outputs => (Raise e, outputs).

(** Sequencing: an exception ends the run, leaving [outputs] as it stands. *)
#[global] Instance Py_bind : MBind Py :=
  fun A B (k : A -> Py B) (c : Py A) outputs =>
    match c outputs with
    | (Ok a, outputs') => k a outputs'
    | (Raise e, outputs') => (Raise e, outputs')
    end.

(** [d[name]] for reading: [KeyError] when [name] is absent. *)
Definition getitem (d : gmap string R) (name : string) : Py R :=
  match d !! name with
  | Some v => mret v
  | None => raise (KeyError name)
  end.

(** [outputs[name] = v]. *)
Definition setitem (name : string) (v : R) : Py unit :=
  fun outputs => (Ok tt, <[name := v]> outputs).

(** [assert cond, msg]; [msg] is [None] for a bare [assert cond]. *)
Definition assert (cond : bool) (msg : option string) : Py unit :=
  if cond then mret tt else raise (AssertionError msg).

(** [options.declare(name, default=v)] of OpenMDAO's [OptionsDictionary]. *)
Definition declare (name : string) (default : R)
    (options : gmap string R) : gmap string R :=
  <[name := default]> options.

(** [options[name] = v] of [OptionsDictionary]: only a declared option can
    be set; the component constructor passes its keyword arguments through
    this after [initialize] has run. *)
Definition set_option (options : gmap string R) (kw : string * R)
    : result (gmap string R) :=
  match options !! kw.1 with
  | Some _ => Ok (<[kw.1 := kw.2]> options)
  | None => Raise (KeyError kw.1)
  end.

Fixpoint update_options (options : gmap string R) (kwargs : list (string * R))
    : result (gmap string R) :=
  match kwargs with
  | [] => Ok options
  | kw :: kwargs' =>
      match set_option options kw with
      | Ok options' => update_options options' kwargs'
      | Raise e => Raise e
      end
  end.

(** ** frictioncoefficient.py *)
Module FrictionCoefficient.

(** [FrictionCoefficient.initialize]: the six declared options, each with
    default [1.0]. *)
Definition initialize : gmap string R :=
  declare "OriginalTemperature" 1
    (declare "ParametricFactorTempertature" 1
      (declare "ParametricFactorSpeed" 1
        (declare "MultiplicationFactorTempertature" 1
          (declare "MultiplicationFactorSpeed" 1
            (declare "SteadyStateFrictionCoefficient" 1 ∅))))).

(** The constructor called with keyword arguments: [initialize], then
    each keyword argument is stored as an option value.  (OpenMDAO
    declares options of its own before [initialize] runs; none of them
    bears a name used here, and they are left out, so a keyword the
    model accepts is accepted, and the converse is not claimed.) *)
Definition new (kwargs : list (string * R)) : result (gmap string R) :=
  update_options initialize kwargs.

(** [FrictionCoefficient.setup]: the inputs and the output with their
    initial values. *)
Definition setup_inputs : gmap string R :=
  <["Temperature" := 1]> (<["SurfaceVelocity" := 1]> ∅).

Definition setup_outputs : gmap string R :=
  <["FrictionCoefficient" := 0.45]> ∅.

(** [FrictionCoefficient.compute]. *)
Definition compute (options inputs : gmap string R) : Py unit :=
  mu_d0 ← getitem options "SteadyStateFrictionCoefficient";
  n_v ← getitem options "MultiplicationFactorSpeed";
  n_t ← getitem options "MultiplicationFactorFrictionTempertature";
  m_v ← getitem options "ParametricFactorSpeed";
  m_t ← getitem options "ParametricFactorFrictionTempertature";
  t_o ← getitem options "OriginalTemperature";
  v_curr ← getitem inputs "SurfaceVelocity";
  t_curr ← getitem inputs "Temperature";
  let velocity_factor := 1 + n_v * exp (- (m_v * v_curr)) in
  let temperature_factor := 1 + n_t * exp (- (m_t * (t_curr - t_o))) in
  let mu_curr := mu_d0 * velocity_factor * temperature_factor in
  setitem "FrictionCoefficient" mu_curr.

End FrictionCoefficient.

(** ** heatconduction.py *)
Module HeatConduction.

(** [HeatConduction.initialize]. *)
Definition initialize : gmap string R :=
  declare "ThermalContactConductance" 0.5 ∅.

(** [HeatConduction.setup]. *)
Definition setup_inputs : gmap string R :=
  <["AreaContact" := 1]>
    (<["TemperatureContact" := 1]> (<["TemperatureBrakePad" := 1]> ∅)).

Definition setup_outputs : gmap string R :=
  <["HeatRate" := 0.45]> ∅.

(** [HeatConduction.compute]. *)
Definition compute (options inputs : gmap string R) : Py unit :=
  k_cond ← getitem options "ThermalContactConductance";
  assert (bool_decide (k_cond > 0)) (Some "Conductance must be positive");;
  area ← getitem inputs "AreaContact";
  assert (bool_decide (area > 0))
    (Some "Area must be a positive non-zero quantity");;
  sur_temp ← getitem inputs "TemperatureContact";
  pad_temp ← getitem inputs "TemperatureBrakePad";
  assert (bool_decide (pad_temp > sur_temp)) None;;
  let temp_diff := pad_temp - sur_temp in
  let heat_loss := - (k_cond * temp_diff * area) in
  assert (bool_decide (heat_loss < 0))
    (Some "Heat Loss is always a negative quantity");;
  setitem "HeatRate" heat_loss.

End HeatConduction.

(** ** heatconvective.py *)
Module HeatConvective.

(** [HeatConvective.initialize]. *)
Definition initialize : gmap string R :=
  declare "ConvectiveCoefficient" 0.5 ∅.

(** [HeatConvective.setup]. *)
Definition setup_inputs : gmap string R :=
  <["AreaBrakePad" := 1]>
    (<["TemperatureSurrounding" := 1]> (<["TemperatureBrakePad" := 1]> ∅)).

Definition setup_outputs : gmap string R :=
  <["HeatRate" := 0.45]> ∅.

(** [HeatConvective.compute]. *)
Definition compute (options inputs : gmap string R) : Py unit :=
  h_conv ← getitem options "ConvectiveCoefficient";
  assert (bool_decide (h_conv > 0))
    (Some "Convective Coefficient must be positive");;
  area ← getitem inputs "AreaBrakePad";
  assert (bool_decide (area > 0))
    (Some "Area must be a positive non-zero quantity");;
  sur_temp ← getitem inputs "TemperatureSurrounding";
  pad_temp ← getitem inputs "TemperatureBrakePad";
  assert (bool_decide (pad_temp > sur_temp)) None;;
  let temp_diff := pad_temp - sur_temp in
  let heat_loss := - (h_conv * temp_diff * area) in
  assert (bool_decide (heat_loss < 0))
    (Some "Heat Loss is always a negative quantity");;
  setitem "HeatRate" heat_loss.

End HeatConvective.

(** ** heatgeneration.py *)
Module HeatGeneration.

(** [HeatGeneration.initialize]. *)
Definition initialize : gmap string R :=
  declare "HeatRatePadRatio" 0.5 ∅.

(** [HeatGeneration.setup]. *)
Definition setup_inputs : gmap string R :=
  <["SurfaceVelocity" := 1]> (<["BrakingForce" := 1]> ∅).

Definition setup_outputs : gmap string R :=
  <["HeatRateTrack" := 0.45]> (<["HeatRatePad" := 0.45]> ∅).

(** [HeatGeneration.compute]. *)
Definition compute (options inputs : gmap string R) : Py unit :=
  braking_force ← getitem inputs "BrakingForce";
  surface_velocity ← getitem inputs "SurfaceVelocity";
  ratio ← getitem options "HeatRatePadRatio";
  assert (bool_decide (ratio > 0) && bool_decide (ratio < 1)) None;;
  let total_heat_rate := braking_force * surface_velocity in
  let heat_rate_pad := ratio * total_heat_rate in
  let heat_rate_track := (1 - ratio) * total_heat_rate in
  setitem "HeatRatePad" heat_rate_pad;;
  setitem "HeatRateTrack" heat_rate_track.

End HeatGeneration.

(** ** battery.py *)

(** The parameters and outputs of [Battery] are fixed when the component
    is built, so they are records.  In this first model [/] is the total
    division of the reals: it tells what the formulas relate on
    parameters with no zero divisor, and nothing is to be concluded from
    it at a zero divisor, where the code stops with [ZeroDivisionError]
    or goes on with [inf] or [nan].  Module [Division] below models the
    run with its divisions.

    Statements that touch no dictionary end in completion or an
    exception. *)
#[global] Instance result_ret : MRet result := fun A (a : A) => Ok a.

#[global] Instance result_bind : MBind result :=
  fun A B (k : A -> result B) (c : result A) =>
    match c with
    | Ok a => k a
    | Raise e => Raise e
    end.

(** [np.ceil]: the least integer not below [x], as a float. *)
Definition ceil (x : R) : R := IZR (Zceil x).

Module Battery.

(** The parameters [Battery.__init__] adds with [add_param]. *)
Record Params : Type := mkParams {
  des_time : R;
  time_of_flight : R;
  des_power : R;
  des_current : R;
  q_l : R;
  e_full : R;
  e_nom : R;
  e_exp : R;
  q_n : R;
  t_exp : R;
  t_nom : R;
  r : R;
  battery_cross_section_area : R;
  cell_mass : R;
  cell_height : R;
  cell_diameter : R
}.

(** The outputs [Battery.__init__] adds with [add_output]. *)
Record Unknowns : Type := mkUnknowns {
  n_cells : R;
  output_voltage : R;
  battery_mass : R;
  battery_volume : R;
  battery_cost : R;
  battery_length : R
}.

(** [Battery.__init__]: every parameter and output at its default. *)
Definition __init__ : Params * Unknowns :=
  ({| des_time := 1.0;
      time_of_flight := 1.0;
      des_power := 7.0;
      des_current := 1.0;
      q_l := 0.1;
      e_full := 1.4;
      e_nom := 1.2;
      e_exp := 1.27;
      q_n := 3.5;
      t_exp := 1.0;
      t_nom := 4.3;
      r := 0.0046;
      battery_cross_section_area := 15000.0;
      cell_mass := 170.0;
      cell_height := 61.0;
      cell_diameter := 33.0 |},
   {| n_cells := 1.0;
      output_voltage := 1000.0;
      battery_mass := 1.0;
      battery_volume := 1.0;
      battery_cost := 1.0;
      battery_length := 1.0 |}).

(** [unknowns[name] = v], one per output. *)
Definition set_n_cells (v : R) (u : Unknowns) : Unknowns :=
  mkUnknowns v (output_voltage u) (battery_mass u) (battery_volume u)
    (battery_cost u) (battery_length u).

Definition set_output_voltage (v : R) (u : Unknowns) : Unknowns :=
  mkUnknowns (n_cells u) v (battery_mass u) (battery_volume u)
    (battery_cost u) (battery_length u).

Definition set_battery_mass (v : R) (u : Unknowns) : Unknowns :=
  mkUnknowns (n_cells u) (output_voltage u) v (battery_volume u)
    (battery_cost u) (battery_length u).

Definition set_battery_volume (v : R) (u : Unknowns) : Unknowns :=
  mkUnknowns (n_cells u) (output_voltage u) (battery_mass u) v
    (battery_cost u) (battery_length u).

Definition set_battery_cost (v : R) (u : Unknowns) : Unknowns :=
  mkUnknowns (n_cells u) (output_voltage u) (battery_mass u)
    (battery_volume u) v (battery_length u).

Definition set_battery_length (v : R) (u : Unknowns) : Unknowns :=
  mkUnknowns (n_cells u) (output_voltage u) (battery_mass u)
    (battery_volume u) (battery_cost u) v.

(** [Battery._calculate_total_discharge]. *)
Definition _calculate_total_discharge (time current : R) : R :=
  time * current.

(** [Battery._check_rep]: the body is thirteen commented-out assertions,
    so nothing is executed. *)
Definition _check_rep (params : Params) (unknowns resids : Unknowns)
    : result unit :=
  mret tt.

Section DischargeCurve.

(** The discharge table [18650.csv] as [np.loadtxt(...).transpose()]
    returns it (row 0: discharge depth, row 1: voltage), and the two
    SciPy routines applied to it.  Neither the table nor SciPy is part
    of the repository: they are parameters of the model. *)
Variable data : list R * list R.
Variable UnivariateSpline : list R -> list R -> R -> R.
Variable quad : (R -> R) -> R -> R -> R * R.

(** [Battery.solve_nonlinear]. *)
Definition solve_nonlinear (params : Params) (unknowns resids : Unknowns)
    : result Unknowns :=
  _check_rep params unknowns resids;;
  let cap_discharge :=
    _calculate_total_discharge (time_of_flight params) (des_current params) in
  let n_parallel := cap_discharge / (q_n params * (1 - q_l params)) in
  let single_bat_current := des_current params / n_parallel in
  let single_bat_discharge :=
    _calculate_total_discharge (des_time params) single_bat_current in
  let func := UnivariateSpline data.1 data.2 in
  let v_batt := func (single_bat_discharge * 1000) in
  let p_bat := v_batt * single_bat_current in
  let energy_cap :=
    (quad func 0 (single_bat_discharge * 1000)).1 / 1000 in
  let n_cells := des_power params / p_bat in
  let n_cells := ceil n_cells in
  let n_parallel := ceil n_parallel in
  let n_series := ceil (n_cells / n_parallel) in
  let unknowns := set_n_cells n_cells unknowns in
  let unknowns := set_battery_mass (energy_cap * n_cells / 265) unknowns in
  let unknowns :=
    set_battery_volume (energy_cap * n_cells / 730 * 1000 / 0.9069)
      unknowns in
  let unknowns := set_output_voltage (n_series * e_nom params) unknowns in
  let unknowns := set_battery_cost (n_cells * 12.95) unknowns in
  let unknowns :=
    set_battery_length
      (battery_volume unknowns / battery_cross_section_area params)
      unknowns in
  _check_rep params unknowns resids;;
  mret unknowns.

(** The intermediate quantities of [solve_nonlinear] that the outputs
    are stated in: the current drawn from one cell, the power of one
    cell, and the energy capacity of one cell. *)
Definition single_bat_current (params : Params) : R :=
  des_current params /
  (_calculate_total_discharge (time_of_flight params) (des_current params)
   / (q_n params * (1 - q_l params))).

Definition single_bat_discharge (params : Params) : R :=
  _calculate_total_discharge (des_time params) (single_bat_current params).

Definition p_bat (params : Params) : R :=
  UnivariateSpline data.1 data.2 (single_bat_discharge params * 1000)
  * single_bat_current params.

Definition energy_cap (params : Params) : R :=
  (quad (UnivariateSpline data.1 data.2) 0
     (single_bat_discharge params * 1000)).1 / 1000.

End DischargeCurve.

(** The same parameters with another design power. *)
Definition with_des_power (v : R) (p : Params) : Params :=
  mkParams (des_time p) (time_of_flight p) v (des_current p) (q_l p)
    (e_full p) (e_nom p) (e_exp p) (q_n p) (t_exp p) (t_nom p) (r p)
    (battery_cross_section_area p) (cell_mass p) (cell_height p)
    (cell_diameter p).

End Battery.

(** ** Statements of the specification *)

(** The specification's formula
    [mu = mu0 * (1 + n_v*exp(-m_v*v)) * (1 + n_t*exp(-m_t*(T - T0)))],
    written from its words, to be compared with what [compute] does. *)
Definition friction_law (mu0 n_v m_v n_t m_t T0 v T : R) : R :=
  mu0 * (1 + n_v * exp (- m_v * v)) * (1 + n_t * exp (- m_t * (T - T0))).

(** A stand-in for the discharge table and the SciPy routines in the
    worked examples: no table, a cell that holds 3.6 V at every depth of
    discharge, and the integral of a constant. *)
Definition no_data : list R * list R := ([], []).
Definition flat_curve : list R -> list R -> R -> R := fun _ _ _ => 3.6.
Definition flat_quad : (R -> R) -> R -> R -> R * R :=
  fun f a b => (f a * (b - a), 0).

(** ** tests/test_frictionCoefficient.py *)
Module TestFrictionCoefficient.

Section TestInit.

(** What [test_init] does with the component once it is built (the
    OpenMDAO problem it assembles, runs and compares with [expected]) is
    OpenMDAO's: a parameter of the model. *)
Variable run_and_compare :
  gmap string R -> list R -> list R -> list R -> result unit.

(** [TestFrictionCoefficient.test_init]: the component is built first,
    from the six keyword arguments in the order they are written. *)
Definition test_init (sFC mFS mFT pFS pFT oT : R)
    (list_temp list_vel expected : list R) : result unit :=
  my_comp ← FrictionCoefficient.new
    [("SteadyStateFrictionCoefficient", sFC);
     ("MultiplicationFactorSpeed", mFS);
     ("MultiplicationFactorTemperature", mFT);
     ("ParametricFactorSpeed", pFS);
     ("ParametricFactorTemperature", pFT);
     ("OriginalTemperature", oT)];
  run_and_compare my_comp list_temp list_vel expected.

End TestInit.

End TestFrictionCoefficient.

(** ** Statements about the components *)

(** The option names [FrictionCoefficient.initialize] declares. *)
Definition friction_option_names : list string :=
  ["SteadyStateFrictionCoefficient"; "MultiplicationFactorSpeed";
   "MultiplicationFactorTempertature"; "ParametricFactorSpeed";
   "ParametricFactorTempertature"; "OriginalTemperature"].

(** A [compute] that raises has stored nothing. *)
Definition stores_nothing_on_error
    (compute : gmap string R -> gmap string R -> Py unit) : Prop :=
  forall (options inputs outputs : gmap string R) (e : exn),
    (compute options inputs outputs).1 = Raise e ->
    (compute options inputs outputs).2 = outputs.

(** A [compute] that leaves every output outside [names] as it was. *)
Definition writes_only (names : list string)
    (compute : gmap string R -> gmap string R -> Py unit) : Prop :=
  forall (options inputs outputs : gmap string R) (name : string),
    name ∉ names ->
    (compute options inputs outputs).2 !! name = outputs !! name.

(** Which assertion of a heat-loss [compute] fires, in the order the code
    checks: the option itself is missing; the coefficient is not positive
    (whatever the inputs hold); the area is not positive; the pad is not
    hotter. *)
Definition heat_loss_failures
    (compute : gmap string R -> gmap string R -> Py unit)
    (coefficient area other coefficient_msg : string) : Prop :=
  forall (options inputs outputs : gmap string R),
    (options !! coefficient = None ->
       compute options inputs outputs = (Raise (KeyError coefficient), outputs))
    /\
    (forall k : R,
       options !! coefficient = Some k -> k <= 0 ->
       compute options inputs outputs =
         (Raise (AssertionError (Some coefficient_msg)), outputs))
    /\
    (forall k A : R,
       options !! coefficient = Some k -> k > 0 ->
       inputs !! area = Some A -> A <= 0 ->
       compute options inputs outputs =
         (Raise (AssertionError
                   (Some "Area must be a positive non-zero quantity")),
          outputs))
    /\
    (forall k A T_other T_pad : R,
       options !! coefficient = Some k -> k > 0 ->
       inputs !! area = Some A -> A > 0 ->
       inputs !! other = Some T_other ->
       inputs !! "TemperatureBrakePad" = Some T_pad ->
       T_pad <= T_other ->
       compute options inputs outputs =
         (Raise (AssertionError None), outputs)).

(** The number of parallel strings [solve_nonlinear] works with, before it
    is rounded up. *)
Definition n_parallel (params : Battery.Params) : R :=
  Battery._calculate_total_discharge
    (Battery.time_of_flight params) (Battery.des_current params)
  / (Battery.q_n params * (1 - Battery.q_l params)).

(** * The components on the machine's arithmetic *)

(** A statement that runs against a mutable object of type [S] (an
    [outputs] dictionary, the [unknowns] vector) and completes or raises. *)
Definition Run (S A : Type) : Type := S -> result A * S.

Definition Run_ret {S : Type} : MRet (Run S) :=
  fun A (a : A) s => (Ok a, s).

Definition Run_bind {S : Type} : MBind (Run S) :=
  fun A B (k : A -> Run S B) (c : Run S A) s =>
    match c s with
    | (Ok a, s') => k a s'
    | (Raise e, s') => (Raise e, s')
    end.

Definition fail {S A : Type} (e : exn) : Run S A := fun s => (Raise e, s).

(** ** The heat components on IEEE binary64 *)

(** A Python float is an IEEE binary64 value: the kernel's primitive
    [float], with its correctly rounded [*], [-] and [+] and its
    comparisons, which are false on NaN. *)
Module Binary64.

Import Stdlib.Floats.Floats.
#[local] Open Scope float_scope.
#[local] Existing Instance Run_ret.
#[local] Existing Instance Run_bind.
#[local] Set Warnings "-inexact-float".

(** Python's [x > y]. *)
Definition gtb (x y : float) : bool := y <? x.

(** [d[name]] for reading: [KeyError] when [name] is absent. *)
Definition getitem (d : gmap string float) (name : string)
    : Run (gmap string float) float :=
  match d !! name with
  | Some v => mret v
  | None => fail (KeyError name)
  end.

(** [outputs[name] = v]. *)
Definition setitem (name : string) (v : float)
    : Run (gmap string float) unit :=
  fun outputs => (Ok tt, <[name := v]> outputs).

(** [assert cond, msg]; [msg] is [None] for a bare [assert cond]. *)
Definition assert (cond : bool) (msg : option string)
    : Run (gmap string float) unit :=
  if cond then mret tt else fail (AssertionError msg).

(** [options.declare(name, default=v)]. *)
Definition declare (name : string) (default : float)
    (options : gmap string float) : gmap string float :=
  <[name := default]> options.

(** *** heatconduction.py *)
Module HeatConduction.

(** [HeatConduction.initialize]. *)
Definition initialize : gmap string float :=
  declare "ThermalContactConductance" 0.5 ∅.

(** [HeatConduction.setup]. *)
Definition setup_inputs : gmap string float :=
  <["AreaContact" := 1]>
    (<["TemperatureContact" := 1]> (<["TemperatureBrakePad" := 1]> ∅)).

Definition setup_outputs : gmap string float :=
  <["HeatRate" := 0.45]> ∅.

(** [HeatConduction.compute]. *)
Definition compute (options inputs : gmap string float)
    : Run (gmap string float) unit :=
  k_cond ← getitem options "ThermalContactConductance";
  assert (gtb k_cond 0) (Some "Conductance must be positive");;
  area ← getitem inputs "AreaContact";
  assert (gtb area 0)
    (Some "Area must be a positive non-zero quantity");;
  sur_temp ← getitem inputs "TemperatureContact";
  pad_temp ← getitem inputs "TemperatureBrakePad";
  assert (gtb pad_temp sur_temp) None;;
  let temp_diff := pad_temp - sur_temp in
  let heat_loss := - (k_cond * temp_diff * area) in
  assert (heat_loss <? 0)
    (Some "Heat Loss is always a negative quantity");;
  setitem "HeatRate" heat_loss.

End HeatConduction.

(** *** heatconvective.py *)
Module HeatConvective.

(** [HeatConvective.initialize]. *)
Definition initialize : gmap string float :=
  declare "ConvectiveCoefficient" 0.5 ∅.

(** [HeatConvective.setup]. *)
Definition setup_inputs : gmap string float :=
  <["AreaBrakePad" := 1]>
    (<["TemperatureSurrounding" := 1]> (<["TemperatureBrakePad" := 1]> ∅)).

Definition setup_outputs : gmap string float :=
  <["HeatRate" := 0.45]> ∅.

(** [HeatConvective.compute]. *)
Definition compute (options inputs : gmap string float)
    : Run (gmap string float) unit :=
  h_conv ← getitem options "ConvectiveCoefficient";
  assert (gtb h_conv 0)
    (Some "Convective Coefficient must be positive");;
  area ← getitem inputs "AreaBrakePad";
  assert (gtb area 0)
    (Some "Area must be a positive non-zero quantity");;
  sur_temp ← getitem inputs "TemperatureSurrounding";
  pad_temp ← getitem inputs "TemperatureBrakePad";
  assert (gtb pad_temp sur_temp) None;;
  let temp_diff := pad_temp - sur_temp in
  let heat_loss := - (h_conv * temp_diff * area) in
  assert (heat_loss <? 0)
    (Some "Heat Loss is always a negative quantity");;
  setitem "HeatRate" heat_loss.

End HeatConvective.

(** *** heatgeneration.py *)
Module HeatGeneration.

(** [HeatGeneration.initialize]. *)
Definition initialize : gmap string float :=
  declare "HeatRatePadRatio" 0.5 ∅.

(** [HeatGeneration.setup]. *)
Definition setup_inputs : gmap string float :=
  <["SurfaceVelocity" := 1]> (<["BrakingForce" := 1]> ∅).

Definition setup_outputs : gmap string float :=
  <["HeatRateTrack" := 0.45]> (<["HeatRatePad" := 0.45]> ∅).

(** [HeatGeneration.compute]. *)
Definition compute (options inputs : gmap string float)
    : Run (gmap string float) unit :=
  braking_force ← getitem inputs "BrakingForce";
  surface_velocity ← getitem inputs "SurfaceVelocity";
  ratio ← getitem options "HeatRatePadRatio";
  assert (gtb ratio 0 && (ratio <? 1)) None;;
  let total_heat_rate := braking_force * surface_velocity in
  let heat_rate_pad := ratio * total_heat_rate in
  let heat_rate_track := (1 - ratio) * total_heat_rate in
  setitem "HeatRatePad" heat_rate_pad;;
  setitem "HeatRateTrack" heat_rate_track.

End HeatGeneration.

(** The value both heat-loss components compute and test before they
    store it. *)
Definition heat_loss (coefficient T_pad T_other area : float) : float :=
  - (coefficient * (T_pad - T_other) * area).



End Binary64.

(** ** The battery with the divisions of Python and NumPy *)

#[global] Instance Req_decision (x y : R) : Decision (x = y) := Req_dec_T x y.


Module Division.

#[local] Existing Instance Run_ret.
#[local] Existing Instance Run_bind.

(** [x / y] on Python floats (the parameters): a zero divisor raises
    [ZeroDivisionError]. *)
Definition div {S : Type} (x y : R) : Run S R :=
  if decide (y = 0) then fail ZeroDivisionError else mret (x / y).

(** [x / y] where an operand is a NumPy value (what the spline and
    [np.ceil] return): a zero divisor gives [inf] or [nan] and the code
    goes on; the modelled run stops, with [NonFinite]. *)
Definition np_divide {S : Type} (x y : R) : Run S R :=
  if decide (y = 0) then fail NonFinite else mret (x / y).

(** [unknowns[name] = v] and [unknowns[name]] as a value. *)
Definition store (set : Battery.Unknowns -> Battery.Unknowns)
    : Run Battery.Unknowns unit :=
  fun unknowns => (Ok tt, set unknowns).

Definition load (get : Battery.Unknowns -> R) : Run Battery.Unknowns R :=
  fun unknowns => (Ok (get unknowns), unknowns).

(** [self._check_rep(params, unknowns, resids)]. *)
Definition _check_rep (params : Battery.Params) (resids : Battery.Unknowns)
    : Run Battery.Unknowns unit :=
  fun unknowns => (Battery._check_rep params unknowns resids, unknowns).

Section DischargeCurve.

Variable data : list R * list R.
Variable UnivariateSpline : list R -> list R -> R -> R.
Variable quad : (R -> R) -> R -> R -> R * R.

(** [Battery.solve_nonlinear], statement by statement, on the [unknowns]
    it mutates.  The divisions of lines 198 and 199 are between
    parameters; those of lines 216, 219 and 236 have a NumPy operand. *)
Definition solve_nonlinear (params : Battery.Params)
    (unknowns resids : Battery.Unknowns) : result unit * Battery.Unknowns :=
  (_check_rep params resids;;
   let cap_discharge :=
     Battery._calculate_total_discharge
       (Battery.time_of_flight params) (Battery.des_current params) in
   n_parallel ←
     div cap_discharge (Battery.q_n params * (1 - Battery.q_l params));
   single_bat_current ← div (Battery.des_current params) n_parallel;
   let single_bat_discharge :=
     Battery._calculate_total_discharge
       (Battery.des_time params) single_bat_current in
   let func := UnivariateSpline data.1 data.2 in
   let v_batt := func (single_bat_discharge * 1000) in
   let p_bat := v_batt * single_bat_current in
   let energy_cap :=
     (quad func 0 (single_bat_discharge * 1000)).1 / 1000 in
   n_cells ← np_divide (Battery.des_power params) p_bat;
   let n_cells := ceil n_cells in
   let n_parallel := ceil n_parallel in
   quotient ← np_divide n_cells n_parallel;
   let n_series := ceil quotient in
   store (Battery.set_n_cells n_cells);;
   store (Battery.set_battery_mass (energy_cap * n_cells / 265));;
   store (Battery.set_battery_volume
            (energy_cap * n_cells / 730 * 1000 / 0.9069));;
   store (Battery.set_output_voltage (n_series * Battery.e_nom params));;
   store (Battery.set_battery_cost (n_cells * 12.95));;
   battery_volume ← load Battery.battery_volume;
   battery_length ←
     np_divide battery_volume (Battery.battery_cross_section_area params);
   store (Battery.set_battery_length battery_length);;
   _check_rep params resids) unknowns.

(** The five divisors of [solve_nonlinear] that are not literals: those
    of lines 198, 199, 216, 219 and 236. *)
Definition divisors_nonzero (params : Battery.Params) : Prop :=
  Battery.q_n params * (1 - Battery.q_l params) <> 0
  /\ n_parallel params <> 0
  /\ Battery.p_bat data UnivariateSpline params <> 0
  /\ ceil (n_parallel params) <> 0
  /\ Battery.battery_cross_section_area params <> 0.

(** The outputs of a run that completes. *)
Definition outputs (params : Battery.Params) : Battery.Unknowns :=
  let n_cells :=
    ceil (Battery.des_power params / Battery.p_bat data UnivariateSpline params) in
  let energy_cap := Battery.energy_cap data UnivariateSpline quad params in
  let battery_volume := energy_cap * n_cells / 730 * 1000 / 0.9069 in
  {| Battery.n_cells := n_cells;
     Battery.output_voltage :=
       ceil (n_cells / ceil (n_parallel params)) * Battery.e_nom params;
     Battery.battery_mass := energy_cap * n_cells / 265;
     Battery.battery_volume := battery_volume;
     Battery.battery_cost := n_cells * 12.95;
     Battery.battery_length :=
       battery_volume / Battery.battery_cross_section_area params |}.

End DischargeCurve.

End Division.

(** * Properties *)

(** ** Running statements *)

Lemma getitem_Some (d : gmap string R) (name : string) (v : R)
    (outputs : gmap string R) :
  d !! name = Some v -> getitem d name outputs = (Ok v, outputs).
Proof. intros Hd. unfold getitem. now rewrite Hd. Qed.

Lemma getitem_None (d : gmap string R) (name : string)
    (outputs : gmap string R) :
  d !! name = None -> getitem d name outputs = (Raise (KeyError name), outputs).
Proof. intros Hd. unfold getitem. now rewrite Hd. Qed.

Lemma assert_true (cond : bool) (msg : option string)
    (outputs : gmap string R) :
  cond = true -> assert cond msg outputs = (Ok tt, outputs).
Proof. now intros ->. Qed.

Lemma assert_false (cond : bool) (msg : option string)
    (outputs : gmap string R) :
  cond = false -> assert cond msg outputs = (Raise (AssertionError msg), outputs).
Proof. now intros ->. Qed.

Lemma bind_Ok {A B : Type} (c : Py A) (k : A -> Py B) (a : A)
    (outputs outputs' : gmap string R) :
  c outputs = (Ok a, outputs') -> (c ≫= k) outputs = k a outputs'.
Proof. intros Hc. unfold mbind, Py_bind. now rewrite Hc. Qed.

Lemma bind_Raise {A B : Type} (c : Py A) (k : A -> Py B) (e : exn)
    (outputs outputs' : gmap string R) :
  c outputs = (Raise e, outputs') -> (c ≫= k) outputs = (Raise e, outputs').
Proof. intros Hc. unfold mbind, Py_bind. now rewrite Hc. Qed.

(** Reads the next statement of a run: a lookup that is known, or an
    assertion whose condition [lra] settles. *)
Ltac py_read H := rewrite (bind_Ok _ _ _ _ _ (getitem_Some _ _ _ _ H)).
Ltac py_pass :=
  erewrite bind_Ok by (apply assert_true, bool_decide_eq_true_2; lra).
Ltac py_fail :=
  erewrite bind_Raise by (apply assert_false, bool_decide_eq_false_2; lra).

(** ** Options: which names exist after construction *)

Lemma set_option_declared (options options' : gmap string R)
    (kw : string * R) (name : string) :
  set_option options kw = Ok options' ->
  (options' !! name = None <-> options !! name = None).
Proof.
  unfold set_option. destruct (options !! kw.1) as [old|] eqn:Hkw; [|discriminate].
  intros [= <-]. destruct (decide (kw.1 = name)) as [<-|Hne].
  - rewrite lookup_insert_eq, Hkw. split; discriminate.
  - now rewrite lookup_insert_ne.
Qed.

(** Keyword arguments never add or remove an option name. *)
Lemma update_options_declared (kwargs : list (string * R))
    (options options' : gmap string R) (name : string) :
  update_options options kwargs = Ok options' ->
  (options' !! name = None <-> options !! name = None).
Proof.
  revert options. induction kwargs as [|kw kwargs IH]; intros options; simpl.
  - now intros [= <-].
  - destruct (set_option options kw) as [options1|e] eqn:Hset; [|discriminate].
    intros Hrest. rewrite (IH _ Hrest).
    now apply set_option_declared with (kw := kw).
Qed.

Lemma declared_is_Some (options options' : gmap string R)
    (kwargs : list (string * R)) (name : string) :
  update_options options kwargs = Ok options' ->
  is_Some (options !! name) -> is_Some (options' !! name).
Proof.
  intros Hupd Hsome. apply not_eq_None_Some.
  rewrite (update_options_declared _ _ _ name Hupd).
  now apply not_eq_None_Some.
Qed.

(** ** FrictionCoefficient *)

(** The constructor call of [tests/test_frictionCoefficient.py] spells the
    two temperature options correctly, which [initialize] does not: the
    call itself is refused. *)
Lemma FrictionCoefficient_test_constructor_raises :
  FrictionCoefficient.new
    [("SteadyStateFrictionCoefficient", 1); ("MultiplicationFactorSpeed", 0);
     ("MultiplicationFactorTemperature", 0); ("ParametricFactorSpeed", 0);
     ("ParametricFactorTemperature", 0); ("OriginalTemperature", 5)]
  = Raise (KeyError "MultiplicationFactorTemperature").
Proof. reflexivity. Qed.

Lemma friction_law_rest (mu0 n_v m_v n_t m_t T0 : R) :
  friction_law mu0 n_v m_v n_t m_t T0 0 T0 = mu0 * (1 + n_v) * (1 + n_t).
Proof.
  unfold friction_law.
  replace (- m_v * 0) with 0 by ring. replace (- m_t * (T0 - T0)) with 0 by ring.
  rewrite exp_0. ring.
Qed.

Lemma friction_law_decreasing (mu0 n_v m_v n_t m_t T0 T v1 v2 : R) :
  0 < n_v -> 0 < m_v -> 0 < mu0 ->
  0 < 1 + n_t * exp (- m_t * (T - T0)) ->
  v1 < v2 ->
  friction_law mu0 n_v m_v n_t m_t T0 v2 T < friction_law mu0 n_v m_v n_t m_t T0 v1 T.
Proof.
  intros Hnv Hmv Hmu Htf Hv. unfold friction_law.
  assert (Hexp : exp (- m_v * v2) < exp (- m_v * v1)) by (apply exp_increasing; nra).
  apply Rmult_lt_compat_r; [exact Htf|].
  apply Rmult_lt_compat_l; [exact Hmu|]. nra.
Qed.

(** C2.  On a component built by its constructor, whatever the keyword
    arguments and whatever the inputs, [compute] raises [KeyError] at its
    third option read: the names it reads for the two temperature factors,
    ['MultiplicationFactorFrictionTempertature'] and
    ['ParametricFactorFrictionTempertature'], are not declared, while
    [initialize] declared ['MultiplicationFactorTempertature'] and
    ['ParametricFactorTempertature'].  The formula is not reached and
    [outputs] is left as it was. *)
Theorem FrictionCoefficient_compute_raises_KeyError
    (kwargs : list (string * R)) (options inputs outputs : gmap string R) :
  FrictionCoefficient.new kwargs = Ok options ->
  options !! "MultiplicationFactorFrictionTempertature" = None /\
  options !! "ParametricFactorFrictionTempertature" = None /\
  is_Some (options !! "MultiplicationFactorTempertature") /\
  is_Some (options !! "ParametricFactorTempertature") /\
  FrictionCoefficient.compute options inputs outputs =
    (Raise (KeyError "MultiplicationFactorFrictionTempertature"), outputs).
Proof.
  intros Hnew. unfold FrictionCoefficient.new in Hnew.
  assert (Hnt : options !! "MultiplicationFactorFrictionTempertature" = None)
    by now apply (update_options_declared _ _ _ _ Hnew).
  assert (Hmt : options !! "ParametricFactorFrictionTempertature" = None)
    by now apply (update_options_declared _ _ _ _ Hnew).
  repeat split; try assumption.
  - apply (declared_is_Some _ _ _ _ Hnew). now eexists.
  - apply (declared_is_Some _ _ _ _ Hnew). now eexists.
  - destruct (declared_is_Some _ _ _ "SteadyStateFrictionCoefficient" Hnew)
      as [mu_d0 Hmu]; [now eexists|].
    destruct (declared_is_Some _ _ _ "MultiplicationFactorSpeed" Hnew)
      as [n_v Hnv]; [now eexists|].
    unfold FrictionCoefficient.compute. py_read Hmu. py_read Hnv.
    now rewrite (bind_Raise _ _ _ _ _ (getitem_None _ _ _ Hnt)).
Qed.

(** C2 on a component built with [MultiplicationFactorSpeed=2] and run on
    the inputs and outputs [setup] leaves. *)
Lemma FrictionCoefficient_compute_raises_KeyError_witness :
  let options := <["MultiplicationFactorSpeed" := 2]> FrictionCoefficient.initialize in
  FrictionCoefficient.new [("MultiplicationFactorSpeed", 2)] = Ok options /\
  FrictionCoefficient.compute options FrictionCoefficient.setup_inputs
    FrictionCoefficient.setup_outputs =
    (Raise (KeyError "MultiplicationFactorFrictionTempertature"),
     FrictionCoefficient.setup_outputs).
Proof.
  split; [reflexivity|].
  apply (FrictionCoefficient_compute_raises_KeyError
           [("MultiplicationFactorSpeed", 2)]).
  reflexivity.
Defined.

(** C1, at the rest point.  With the default options (all [1.0]) and the
    inputs [v = 0], [T = T0 = 1], the friction law gives
    [1 * (1+1) * (1+1) = 4]; [compute] raises [KeyError] instead and the
    output keeps its initial value [0.45]. *)
Theorem FrictionCoefficient_rest_point_not_computed :
  let options := FrictionCoefficient.initialize in
  let inputs :=
    <["Temperature" := 1]>
      (<["SurfaceVelocity" := 0]> FrictionCoefficient.setup_inputs) in
  let run :=
    FrictionCoefficient.compute options inputs
      FrictionCoefficient.setup_outputs in
  run.1 = Raise (KeyError "MultiplicationFactorFrictionTempertature") /\
  run.2 !! "FrictionCoefficient" = Some 0.45 /\
  friction_law 1 1 1 1 1 1 0 1 = 4 /\
  0.45 <> 4.
Proof.
  repeat split; try reflexivity.
  - rewrite friction_law_rest. lra.
  - lra.
Qed.

(** C9, at two velocities.  With the default options ([n_v = 1 > 0],
    [m_v = 1 > 0], [mu0 = 1 > 0]) and velocities [0 < 1], the friction law
    decreases strictly, but both runs of [compute] raise [KeyError] and
    leave the same value [0.45] in the output: the value after the run at
    [v = 0] is not greater than the value after the run at [v = 1]. *)
Theorem FrictionCoefficient_velocities_not_compared :
  let run (v : R) :=
    FrictionCoefficient.compute FrictionCoefficient.initialize
      (<["SurfaceVelocity" := v]> FrictionCoefficient.setup_inputs)
      FrictionCoefficient.setup_outputs in
  (run 0).1 = Raise (KeyError "MultiplicationFactorFrictionTempertature") /\
  (run 1).1 = Raise (KeyError "MultiplicationFactorFrictionTempertature") /\
  (run 0).2 !! "FrictionCoefficient" = Some 0.45 /\
  (run 1).2 !! "FrictionCoefficient" = Some 0.45 /\
  friction_law 1 1 1 1 1 1 1 1 < friction_law 1 1 1 1 1 1 0 1.
Proof.
  repeat split; try reflexivity.
  apply friction_law_decreasing; try lra.
  match goal with |- context [exp ?x] => pose proof (exp_pos x) end. lra.
Qed.

(** ** Battery *)





Section BatteryProperties.

Variable data : list R * list R.
Variable UnivariateSpline : list R -> list R -> R -> R.
Variable quad : (R -> R) -> R -> R -> R * R.

Local Abbreviation solve_nonlinear :=
  (Battery.solve_nonlinear data UnivariateSpline quad).
Local Abbreviation p_bat := (Battery.p_bat data UnivariateSpline).
Local Abbreviation energy_cap := (Battery.energy_cap data UnivariateSpline quad).



Lemma p_bat_with_des_power (v : R) (params : Battery.Params) :
  p_bat (Battery.with_des_power v params) = p_bat params.
Proof. reflexivity. Qed.


End BatteryProperties.

(** ** Battery on a flat discharge curve *)

(** On the flat curve one default cell delivers [3.6 * 3.15 = 11.34] W ... *)
Lemma flat_p_bat_default (power : R) :
  Battery.p_bat no_data flat_curve
    (Battery.with_des_power power (Battery.__init__).1) = 11.34.
Proof.
  unfold Battery.p_bat, Battery.single_bat_discharge, Battery.single_bat_current,
    Battery._calculate_total_discharge, flat_curve. simpl.
  lra.
Qed.



(** * Further properties of the components *)

(** ** What a run leaves in [outputs] *)

(** Takes a run apart along every read and every assertion. *)
Ltac py_paths :=
  unfold mbind, Py_bind, getitem, assert, setitem, raise, mret, Py_ret;
  repeat match goal with
    | |- context [match ?d !! ?n with _ => _ end] => destruct (d !! n); simpl
    | |- context [bool_decide ?P] => destruct (bool_decide P); simpl
    end.

(** X1.  None of the four brake-pad [compute] functions stores anything
    in a run that raises: every read and every assertion stands before the
    first assignment to [outputs]. *)
Theorem compute_stores_nothing_on_error :
  stores_nothing_on_error FrictionCoefficient.compute
  /\ stores_nothing_on_error HeatConduction.compute
  /\ stores_nothing_on_error HeatConvective.compute
  /\ stores_nothing_on_error HeatGeneration.compute.
Proof.
  split_and!; intros options inputs outputs e.
  - unfold FrictionCoefficient.compute. py_paths; congruence.
  - unfold HeatConduction.compute. py_paths; congruence.
  - unfold HeatConvective.compute. py_paths; congruence.
  - unfold HeatGeneration.compute. py_paths; congruence.
Qed.

(** X1 on a conduction pad that is not hotter than its contact. *)
Lemma compute_stores_nothing_on_error_witness :
  (HeatConduction.compute HeatConduction.initialize
     HeatConduction.setup_inputs HeatConduction.setup_outputs).1
    = Raise (AssertionError None)
  /\ (HeatConduction.compute HeatConduction.initialize
        HeatConduction.setup_inputs HeatConduction.setup_outputs).2
     = HeatConduction.setup_outputs.
Proof.
  assert (Hrun :
    HeatConduction.compute HeatConduction.initialize
      HeatConduction.setup_inputs HeatConduction.setup_outputs
    = (Raise (AssertionError None), HeatConduction.setup_outputs)).
  { unfold HeatConduction.compute.
    erewrite bind_Ok by (apply getitem_Some; reflexivity). py_pass.
    erewrite bind_Ok by (apply getitem_Some; reflexivity). py_pass.
    erewrite bind_Ok by (apply getitem_Some; reflexivity).
    erewrite bind_Ok by (apply getitem_Some; reflexivity).
    py_fail. reflexivity. }
  split.
  - now rewrite Hrun.
  - apply (proj1 (proj2 compute_stores_nothing_on_error)
             _ _ _ (AssertionError None)).
    now rewrite Hrun.
Defined.

(** X2.  Each [compute] writes its own outputs only: whatever the outcome,
    an entry of [outputs] under another name is what it was. *)
Theorem compute_writes_only_its_outputs :
  writes_only ["FrictionCoefficient"] FrictionCoefficient.compute
  /\ writes_only ["HeatRate"] HeatConduction.compute
  /\ writes_only ["HeatRate"] HeatConvective.compute
  /\ writes_only ["HeatRatePad"; "HeatRateTrack"] HeatGeneration.compute.
Proof.
  split_and!; intros options inputs outputs name Hname.
  - unfold FrictionCoefficient.compute. py_paths; try reflexivity.
    apply lookup_insert_ne. set_solver.
  - unfold HeatConduction.compute. py_paths; try reflexivity.
    apply lookup_insert_ne. set_solver.
  - unfold HeatConvective.compute. py_paths; try reflexivity.
    apply lookup_insert_ne. set_solver.
  - unfold HeatGeneration.compute. py_paths; try reflexivity.
    rewrite !lookup_insert_ne by set_solver. reflexivity.
Qed.

(** X2 on a heat-generation run that completes, seen from an output of
    another component kept in the same dictionary. *)
Lemma compute_writes_only_its_outputs_witness :
  (HeatGeneration.compute HeatGeneration.initialize
     HeatGeneration.setup_inputs
     (<["HeatRate" := 7]> HeatGeneration.setup_outputs)).2 !! "HeatRate"
  = Some 7.
Proof.
  rewrite (proj2 (proj2 (proj2 compute_writes_only_its_outputs))
             HeatGeneration.initialize HeatGeneration.setup_inputs
             (<["HeatRate" := 7]> HeatGeneration.setup_outputs) "HeatRate").
  - reflexivity.
  - repeat (apply not_elem_of_cons; split; [discriminate|]).
    apply not_elem_of_nil.
Defined.

(** ** HeatConduction and HeatConvective: failures *)

(** X3.  Which error a heat-loss [compute] ends with: [KeyError] when its
    option is missing; its own message when the coefficient is not
    positive, before any input is read; the area message when the area is
    not positive; a bare assertion error when the pad is not hotter than
    the other body.  Nothing is stored in any of these runs. *)
Theorem heat_loss_failure_order :
  heat_loss_failures HeatConduction.compute
    "ThermalContactConductance" "AreaContact" "TemperatureContact"
    "Conductance must be positive"
  /\
  heat_loss_failures HeatConvective.compute
    "ConvectiveCoefficient" "AreaBrakePad" "TemperatureSurrounding"
    "Convective Coefficient must be positive".
Proof.
  split; intros options inputs outputs; split_and!.
  - intros Hk. unfold HeatConduction.compute.
    now rewrite (bind_Raise _ _ _ _ _ (getitem_None _ _ _ Hk)).
  - intros k Hk Hle. unfold HeatConduction.compute. py_read Hk. now py_fail.
  - intros k A Hk Hkpos HA Hle. unfold HeatConduction.compute.
    py_read Hk. py_pass. py_read HA. now py_fail.
  - intros k A T_other T_pad Hk Hkpos HA HApos Hother Hpad Hle.
    unfold HeatConduction.compute.
    py_read Hk. py_pass. py_read HA. py_pass. py_read Hother. py_read Hpad.
    now py_fail.
  - intros Hk. unfold HeatConvective.compute.
    now rewrite (bind_Raise _ _ _ _ _ (getitem_None _ _ _ Hk)).
  - intros k Hk Hle. unfold HeatConvective.compute. py_read Hk. now py_fail.
  - intros k A Hk Hkpos HA Hle. unfold HeatConvective.compute.
    py_read Hk. py_pass. py_read HA. now py_fail.
  - intros k A T_other T_pad Hk Hkpos HA HApos Hother Hpad Hle.
    unfold HeatConvective.compute.
    py_read Hk. py_pass. py_read HA. py_pass. py_read Hother. py_read Hpad.
    now py_fail.
Qed.

(** X3 on a conduction component whose conductance is [0], run on no
    inputs at all, and on a convection component with a zero area. *)
Lemma heat_loss_failure_order_witness :
  HeatConduction.compute
    (<["ThermalContactConductance" := 0]> HeatConduction.initialize) ∅
    HeatConduction.setup_outputs
  = (Raise (AssertionError (Some "Conductance must be positive")),
     HeatConduction.setup_outputs)
  /\
  HeatConvective.compute HeatConvective.initialize
    (<["AreaBrakePad" := 0]> HeatConvective.setup_inputs)
    HeatConvective.setup_outputs
  = (Raise (AssertionError
              (Some "Area must be a positive non-zero quantity")),
     HeatConvective.setup_outputs).
Proof.
  split.
  - refine (proj1 (proj2 (proj1 heat_loss_failure_order
              (<["ThermalContactConductance" := 0]> HeatConduction.initialize)
              ∅ HeatConduction.setup_outputs)) 0 _ _);
      first [reflexivity | lra].
  - refine (proj1 (proj2 (proj2 (proj2 heat_loss_failure_order
              HeatConvective.initialize
              (<["AreaBrakePad" := 0]> HeatConvective.setup_inputs)
              HeatConvective.setup_outputs))) 0.5 0 _ _ _ _);
      first [reflexivity | lra].
Defined.

(** ** FrictionCoefficient: the constructor and the test *)

Lemma set_option_Ok_iff (options : gmap string R) (kw : string * R) :
  (exists options', set_option options kw = Ok options')
  <-> is_Some (options !! kw.1).
Proof.
  unfold set_option. destruct (options !! kw.1) as [old|]; split.
  - now eexists.
  - now eexists.
  - now intros [options' [=]].
  - now intros [old [=]].
Qed.

Lemma update_options_Ok_iff (kwargs : list (string * R))
    (options : gmap string R) :
  (exists options', update_options options kwargs = Ok options')
  <-> Forall (fun kw => is_Some (options !! kw.1)) kwargs.
Proof.
  revert options. induction kwargs as [|kw kwargs IH]; intros options; simpl.
  - split; [constructor | now eexists].
  - rewrite Forall_cons.
    destruct (set_option options kw) as [options1|e] eqn:Hset.
    + rewrite IH. split.
      * intros Hall. split; [apply set_option_Ok_iff; eauto|].
        eapply Forall_impl; [exact Hall|]. intros kw' Hsome. simpl in Hsome.
        apply not_eq_None_Some. apply not_eq_None_Some in Hsome.
        now rewrite <- (set_option_declared _ _ _ kw'.1 Hset).
      * intros [_ Hall]. eapply Forall_impl; [exact Hall|].
        intros kw' Hsome. simpl in Hsome.
        apply not_eq_None_Some. apply not_eq_None_Some in Hsome.
        now rewrite (set_option_declared _ _ _ kw'.1 Hset).
    + split.
      * now intros [options' [=]].
      * intros [Hsome _]. apply set_option_Ok_iff in Hsome as [options' Hok].
        congruence.
Qed.

Lemma initialize_declares (name : string) :
  is_Some (FrictionCoefficient.initialize !! name)
  <-> name ∈ friction_option_names.
Proof.
  unfold FrictionCoefficient.initialize, declare, friction_option_names.
  rewrite !lookup_insert_is_Some', !elem_of_cons, elem_of_nil.
  pose proof (lookup_empty_is_Some (M := gmap string) (A := R) name).
  intuition congruence.
Qed.

(** X8.  The constructor of [FrictionCoefficient] accepts every list of
    keyword arguments whose names are among the six option names
    [initialize] declares. *)
Theorem FrictionCoefficient_new_accepts_declared_names
    (kwargs : list (string * R)) :
  Forall (fun kw => kw.1 ∈ friction_option_names) kwargs ->
  exists options, FrictionCoefficient.new kwargs = Ok options.
Proof.
  intros Hnames. unfold FrictionCoefficient.new.
  apply update_options_Ok_iff.
  eapply Forall_impl; [exact Hnames|]. intros kw.
  apply initialize_declares.
Qed.

(** X8 on the misspelt names themselves, which are the declared ones. *)
Lemma FrictionCoefficient_new_accepts_declared_names_witness :
  exists options,
    FrictionCoefficient.new
      [("MultiplicationFactorTempertature", 2);
       ("ParametricFactorTempertature", 3)]
    = Ok options.
Proof.
  apply FrictionCoefficient_new_accepts_declared_names.
  unfold friction_option_names.
  repeat (apply Forall_cons; split;
          [simpl; rewrite !elem_of_cons; tauto|]).
  apply Forall_nil_2.
Defined.

Lemma update_options_app (kwargs1 kwargs2 : list (string * R))
    (options : gmap string R) :
  update_options options (kwargs1 ++ kwargs2) =
    match update_options options kwargs1 with
    | Ok options1 => update_options options1 kwargs2
    | Raise e => Raise e
    end.
Proof.
  revert options. induction kwargs1 as [|kw kwargs1 IH]; intros options; simpl.
  - reflexivity.
  - destruct (set_option options kw) as [options1|e]; [apply IH | reflexivity].
Qed.

Lemma update_options_untouched (kwargs : list (string * R))
    (options options' : gmap string R) (name : string) :
  update_options options kwargs = Ok options' ->
  name ∉ kwargs.*1 ->
  options' !! name = options !! name.
Proof.
  revert options. induction kwargs as [|kw kwargs IH]; intros options; simpl.
  - now intros [= <-].
  - intros Hrun Hname. apply not_elem_of_cons in Hname as [Hne Hname].
    unfold set_option in Hrun.
    destruct (options !! kw.1) as [old|]; [|discriminate].
    rewrite (IH _ Hrun Hname). now apply lookup_insert_ne.
Qed.

(** X9.  The options a constructed [FrictionCoefficient] holds: a declared
    name that no keyword argument mentions has its default [1.0], and the
    last keyword argument given is what is stored under its name. *)
Theorem FrictionCoefficient_new_stores_keywords
    (kwargs : list (string * R)) (options : gmap string R) :
  (forall name : string,
     FrictionCoefficient.new kwargs = Ok options ->
     name ∈ friction_option_names -> name ∉ kwargs.*1 ->
     options !! name = Some 1)
  /\
  (forall (name : string) (v : R),
     FrictionCoefficient.new (kwargs ++ [(name, v)]) = Ok options ->
     options !! name = Some v).
Proof.
  unfold FrictionCoefficient.new. split.
  - intros name Hrun Hdeclared Hname.
    rewrite (update_options_untouched _ _ _ _ Hrun Hname).
    unfold friction_option_names in Hdeclared.
    rewrite !elem_of_cons, elem_of_nil in Hdeclared.
    destruct Hdeclared as [->|[->|[->|[->|[->|[->|[]]]]]]]; reflexivity.
  - intros name v. rewrite update_options_app.
    destruct (update_options FrictionCoefficient.initialize kwargs)
      as [options1|e]; [|discriminate].
    simpl. unfold set_option. simpl.
    destruct (options1 !! name) as [old|]; [|discriminate].
    intros [= <-]. apply lookup_insert_eq.
Qed.

(** X9 on [FrictionCoefficient(OriginalTemperature=5)]. *)
Lemma FrictionCoefficient_new_stores_keywords_witness :
  <["OriginalTemperature" := 5]> FrictionCoefficient.initialize
    !! "ParametricFactorSpeed" = Some 1
  /\
  <["OriginalTemperature" := 5]> FrictionCoefficient.initialize
    !! "OriginalTemperature" = Some 5.
Proof.
  split.
  - refine (proj1 (FrictionCoefficient_new_stores_keywords
                     [("OriginalTemperature", 5)]
                     (<["OriginalTemperature" := 5]>
                        FrictionCoefficient.initialize))
              "ParametricFactorSpeed" _ _ _).
    + reflexivity.
    + unfold friction_option_names.
      rewrite !elem_of_cons. right. right. right. now left.
    + simpl. apply not_elem_of_cons. split; [discriminate|].
      apply not_elem_of_nil.
  - refine (proj2 (FrictionCoefficient_new_stores_keywords []
                     (<["OriginalTemperature" := 5]>
                        FrictionCoefficient.initialize))
              "OriginalTemperature" 5 _).
    reflexivity.
Defined.

(** X10.  [test_init] never gets past its first statement: for every
    parameter tuple the constructor refuses the keyword
    ['MultiplicationFactorTemperature'], which [initialize] spells
    ['MultiplicationFactorTempertature'], and the test ends in [KeyError]
    before any problem is assembled or run. *)
Theorem test_init_raises_KeyError
    (run_and_compare :
       gmap string R -> list R -> list R -> list R -> result unit)
    (sFC mFS mFT pFS pFT oT : R) (list_temp list_vel expected : list R) :
  TestFrictionCoefficient.test_init run_and_compare
    sFC mFS mFT pFS pFT oT list_temp list_vel expected
  = Raise (KeyError "MultiplicationFactorTemperature").
Proof. reflexivity. Qed.

(** ** Battery: what the outputs guarantee *)



Section BatteryGuarantees.

Variable data : list R * list R.
Variable UnivariateSpline : list R -> list R -> R -> R.
Variable quad : (R -> R) -> R -> R -> R * R.

Local Abbreviation solve_nonlinear :=
  (Battery.solve_nonlinear data UnivariateSpline quad).
Local Abbreviation p_bat := (Battery.p_bat data UnivariateSpline).
Local Abbreviation energy_cap := (Battery.energy_cap data UnivariateSpline quad).





End BatteryGuarantees.

(** ** Battery guarantees on the flat discharge curve *)




(** * Properties on the machine's arithmetic *)

Section Binary64Properties.

Import Stdlib.Floats.Floats.
#[local] Open Scope float_scope.
#[local] Set Warnings "-inexact-float".
#[local] Arguments Binary64.gtb : simpl never.
#[local] Arguments Binary64.heat_loss : simpl never.

(** ** Comparisons of binary64 values *)

Lemma SFcompare_antisym (x y : spec_float) :
  SFcompare y x = option_map CompOpp (SFcompare x y).
Proof.
  destruct x as [sx|sx| |sx mx ex], y as [sy|sy| |sy my ey]; simpl;
    try reflexivity;
    try (destruct sx; reflexivity); try (destruct sy; reflexivity);
    try (destruct sx, sy; reflexivity).
  destruct sx, sy; simpl; try reflexivity.
  - rewrite (Z.compare_antisym ey ex).
    destruct (ey ?= ex)%Z; simpl; try reflexivity.
    rewrite Pos.compare_cont_antisym. now rewrite CompOpp_involutive.
  - rewrite (Z.compare_antisym ey ex).
    destruct (ey ?= ex)%Z; simpl; try reflexivity.
    now rewrite Pos.compare_cont_antisym.
Qed.

(** [x <= y] excludes [y < x], also with infinities and signed zeros. *)
Lemma leb_true_ltb_false (x y : float) :
  (x <=? y) = true -> (y <? x) = false.
Proof.
  rewrite leb_spec, ltb_spec.
  unfold SFleb, SFltb.
  rewrite (SFcompare_antisym (Prim2SF x) (Prim2SF y)).
  destruct (SFcompare (Prim2SF x) (Prim2SF y))
    as [[]|]; simpl; congruence.
Qed.

(** Unfolds a run down to its reads and tests. *)
Ltac run64 :=
  unfold mbind, Run_bind, Binary64.getitem, Binary64.assert,
    Binary64.setitem, fail, mret, Run_ret.

(** *** HeatConduction and HeatConvective *)

Section HeatLoss64.

Variables (options inputs outputs : gmap string float).
Variables (k A T_pad T_other : float).

Section Conduction64.

Hypothesis Hk : options !! "ThermalContactConductance" = Some k.
Hypothesis HA : inputs !! "AreaContact" = Some A.
Hypothesis Hother : inputs !! "TemperatureContact" = Some T_other.
Hypothesis Hpad : inputs !! "TemperatureBrakePad" = Some T_pad.


End Conduction64.

Section Convective64.

Hypothesis Hk : options !! "ConvectiveCoefficient" = Some k.
Hypothesis HA : inputs !! "AreaBrakePad" = Some A.
Hypothesis Hother : inputs !! "TemperatureSurrounding" = Some T_other.
Hypothesis Hpad : inputs !! "TemperatureBrakePad" = Some T_pad.


End Convective64.

End HeatLoss64.












(** *** HeatGeneration *)

(** The two outcomes of a run of [HeatGeneration.compute] whose reads
    succeed. *)
Lemma HeatGeneration64_outcome
    (options inputs outputs : gmap string float) (F v r : float) :
  inputs !! "BrakingForce" = Some F ->
  inputs !! "SurfaceVelocity" = Some v ->
  options !! "HeatRatePadRatio" = Some r ->
  Binary64.HeatGeneration.compute options inputs outputs =
    if Binary64.gtb r 0 && (r <? 1) then
      (Ok tt, <["HeatRateTrack" := (1 - r) * (F * v)]>
                (<["HeatRatePad" := r * (F * v)]> outputs))
    else (Raise (AssertionError None), outputs).
Proof.
  intros HF Hv Hr. unfold Binary64.HeatGeneration.compute. run64.
  rewrite HF, Hv, Hr. simpl.
  now destruct (Binary64.gtb r 0 && (r <? 1)).
Qed.

(** C4, as stated, fails.  With [r = 0.1], [F = 13] and [v = 1] the run
    stores [1.3] and [11.700000000000001]; their sum is
    [13.000000000000002], not [F * v = 13]. *)
Lemma HeatGeneration64_sum_inexact :
  Binary64.HeatGeneration.compute
    (<["HeatRatePadRatio" := 0.1]> Binary64.HeatGeneration.initialize)
    (<["BrakingForce" := 13]> Binary64.HeatGeneration.setup_inputs)
    Binary64.HeatGeneration.setup_outputs
  = (Ok tt, <["HeatRateTrack" := 11.700000000000001]>
              (<["HeatRatePad" := 1.3]> Binary64.HeatGeneration.setup_outputs))
  /\ 1.3 + 11.700000000000001 = 13.000000000000002
  /\ (1.3 + 11.700000000000001 =? 13 * 1) = false.
Proof. repeat split; vm_compute; reflexivity. Qed.

(** C4, as the code has it.  With [0 < r < 1],
    [HeatGeneration.compute] stores the binary64 products [r * (F * v)] in
    ['HeatRatePad'] and [(1 - r) * (F * v)] in ['HeatRateTrack']; with a
    ratio for which [r > 0 and r < 1] is false, so with [r <= 0] and with
    [r >= 1], it raises an assertion error and stores nothing. *)
Theorem HeatGeneration64_compute_split
    (options inputs outputs : gmap string float) (F v r : float) :
  inputs !! "BrakingForce" = Some F ->
  inputs !! "SurfaceVelocity" = Some v ->
  options !! "HeatRatePadRatio" = Some r ->
  (Binary64.gtb r 0 = true -> (r <? 1) = true ->
   Binary64.HeatGeneration.compute options inputs outputs =
     (Ok tt, <["HeatRateTrack" := (1 - r) * (F * v)]>
               (<["HeatRatePad" := r * (F * v)]> outputs)))
  /\
  (Binary64.gtb r 0 && (r <? 1) = false ->
   Binary64.HeatGeneration.compute options inputs outputs =
     (Raise (AssertionError None), outputs))
  /\
  ((r <=? 0) = true \/ (1 <=? r) = true ->
   Binary64.HeatGeneration.compute options inputs outputs =
     (Raise (AssertionError None), outputs)).
Proof.
  intros HF Hv Hr.
  rewrite (HeatGeneration64_outcome _ _ _ _ _ _ HF Hv Hr). split_and!.
  - now intros -> ->.
  - now intros ->.
  - intros [Hle | Hle]; apply leb_true_ltb_false in Hle;
      unfold Binary64.gtb; rewrite Hle; [reflexivity|].
    now rewrite andb_false_r.
Qed.

(** C4 as the code has it, with [r = 0.5], [F = 4], [v = 3] (both rates
    [6]), and with the ratio [r = 1], which is refused. *)
Lemma HeatGeneration64_compute_split_witness :
  Binary64.HeatGeneration.compute Binary64.HeatGeneration.initialize
    (<["SurfaceVelocity" := 3]>
       (<["BrakingForce" := 4]> Binary64.HeatGeneration.setup_inputs))
    Binary64.HeatGeneration.setup_outputs
  = (Ok tt, <["HeatRateTrack" := 6]>
              (<["HeatRatePad" := 6]> Binary64.HeatGeneration.setup_outputs))
  /\
  Binary64.HeatGeneration.compute
    (<["HeatRatePadRatio" := 1]> Binary64.HeatGeneration.initialize)
    Binary64.HeatGeneration.setup_inputs
    Binary64.HeatGeneration.setup_outputs
  = (Raise (AssertionError None), Binary64.HeatGeneration.setup_outputs).
Proof.
  split.
  - refine (proj1 (HeatGeneration64_compute_split
                     Binary64.HeatGeneration.initialize
                     (<["SurfaceVelocity" := 3]>
                        (<["BrakingForce" := 4]>
                           Binary64.HeatGeneration.setup_inputs))
                     Binary64.HeatGeneration.setup_outputs 4 3 0.5 _ _ _)
              _ _);
      reflexivity.
  - refine (proj2 (proj2 (HeatGeneration64_compute_split
                     (<["HeatRatePadRatio" := 1]>
                        Binary64.HeatGeneration.initialize)
                     Binary64.HeatGeneration.setup_inputs
                     Binary64.HeatGeneration.setup_outputs 1 1 1 _ _ _))
              _);
      first [reflexivity | right; reflexivity].
Defined.

End Binary64Properties.

(** ** The battery with the divisions of Python and NumPy *)

Section DivisionProperties.

Variable data : list R * list R.
Variable UnivariateSpline : list R -> list R -> R -> R.
Variable quad : (R -> R) -> R -> R -> R * R.

Local Abbreviation solve_nonlinear :=
  (Division.solve_nonlinear data UnivariateSpline quad).
Local Abbreviation divisors_nonzero :=
  (Division.divisors_nonzero data UnivariateSpline).
Local Abbreviation outputs := (Division.outputs data UnivariateSpline quad).
Local Abbreviation p_bat := (Battery.p_bat data UnivariateSpline).

(** Unfolds a run down to its divisions. *)
Ltac run_div :=
  unfold Division.solve_nonlinear, Division._check_rep, Battery._check_rep,
    Division.div, Division.np_divide, Division.store, Division.load,
    mbind, Run_bind, fail, mret, Run_ret, result_ret;
  cbv beta iota.

(** With no zero divisor the run completes, and [outputs] is what it
    leaves. *)
Lemma Division_solve_nonlinear_completes
    (params : Battery.Params) (unknowns resids : Battery.Unknowns) :
  divisors_nonzero params ->
  solve_nonlinear params unknowns resids = (Ok tt, outputs params).
Proof.
  intros (Hd1 & Hd2 & Hd3 & Hd4 & Hd5). run_div.
  rewrite decide_False by exact Hd1. cbv beta iota.
  rewrite decide_False by exact Hd2. cbv beta iota.
  rewrite decide_False by exact Hd3. cbv beta iota.
  rewrite decide_False by exact Hd4. cbv beta iota.
  simpl. rewrite decide_False by exact Hd5. reflexivity.
Qed.

(** A run that completes met no zero divisor. *)
Lemma Division_solve_nonlinear_completed
    (params : Battery.Params) (unknowns resids unknowns' : Battery.Unknowns) :
  solve_nonlinear params unknowns resids = (Ok tt, unknowns') ->
  divisors_nonzero params.
Proof.
  run_div.
  destruct (decide _) as [|Hd1]; [intros [=]|]. cbv beta iota.
  destruct (decide _) as [|Hd2]; [intros [=]|]. cbv beta iota.
  destruct (decide _) as [|Hd3]; [intros [=]|]. cbv beta iota.
  destruct (decide _) as [|Hd4]; [intros [=]|]. cbv beta iota. simpl.
  destruct (decide _) as [|Hd5]; [intros [=]|].
  intros _. exact (conj Hd1 (conj Hd2 (conj Hd3 (conj Hd4 Hd5)))).
Qed.

(** A run that completes leaves what the model with the total division
    computes. *)
Lemma Division_agrees
    (params : Battery.Params) (unknowns resids unknowns' : Battery.Unknowns) :
  solve_nonlinear params unknowns resids = (Ok tt, unknowns') ->
  Battery.solve_nonlinear data UnivariateSpline quad params unknowns resids
  = Ok unknowns'.
Proof.
  intros Hrun.
  pose proof (Division_solve_nonlinear_completed _ _ _ _ Hrun) as Hd.
  rewrite (Division_solve_nonlinear_completes _ unknowns resids Hd) in Hrun.
  injection Hrun as <-. reflexivity.
Qed.



(** X16.  A run of [solve_nonlinear] that completes has overwritten all
    six outputs and read none of them back before writing it: started
    from any other [unknowns] and [resids] it completes with the same
    outputs, and run again on its own result it changes nothing. *)
Theorem Division_outputs_depend_on_params_only
    (params : Battery.Params) (unknowns resids unknowns' : Battery.Unknowns) :
  solve_nonlinear params unknowns resids = (Ok tt, unknowns') ->
  (forall unknowns0 resids0 : Battery.Unknowns,
     solve_nonlinear params unknowns0 resids0 = (Ok tt, unknowns'))
  /\ solve_nonlinear params unknowns' resids = (Ok tt, unknowns').
Proof.
  intros Hrun.
  pose proof (Division_solve_nonlinear_completed _ _ _ _ Hrun) as Hd.
  rewrite (Division_solve_nonlinear_completes _ unknowns resids Hd) in Hrun.
  injection Hrun as <-.
  split; [intros unknowns0 resids0|];
    now apply Division_solve_nonlinear_completes.
Qed.

End DivisionProperties.

(** ** The battery with its divisions, on the flat discharge curve *)

(** The default parameters, at any design power, have no zero divisor:
    the parallel count is [1 / 3.15], one string after rounding up. *)
Lemma flat_divisors_nonzero (power : R) :
  Division.divisors_nonzero no_data flat_curve
    (Battery.with_des_power power (Battery.__init__).1).
Proof.
  unfold Division.divisors_nonzero. rewrite flat_p_bat_default.
  unfold n_parallel, Battery._calculate_total_discharge. simpl.
  assert (Hceil : ceil (1.0 * 1.0 / (3.5 * (1 - 0.1))) = 1).
  { unfold ceil. f_equal. apply Zceil_eq. lra. }
  rewrite Hceil. repeat split; lra.
Qed.





(** X16 on the default parameters: the run from the initial outputs
    and the run from its own result leave the same outputs. *)
Lemma Division_outputs_depend_on_params_only_witness :
  Division.solve_nonlinear no_data flat_curve flat_quad
    (Battery.with_des_power 7 (Battery.__init__).1)
    (Division.outputs no_data flat_curve flat_quad
       (Battery.with_des_power 7 (Battery.__init__).1))
    (Battery.__init__).2
  = (Ok tt,
     Division.outputs no_data flat_curve flat_quad
       (Battery.with_des_power 7 (Battery.__init__).1)).
Proof.
  apply (Division_outputs_depend_on_params_only no_data flat_curve flat_quad
           (Battery.with_des_power 7 (Battery.__init__).1)
           (Battery.__init__).2 (Battery.__init__).2).
  apply Division_solve_nonlinear_completes, flat_divisors_nonzero.
Defined.
